(** * check_ssl_certificate.py: a Nagios check for x509 certificate expiry

    A shallow embedding of
    [charmhelpers/contrib/ssl/files/check_ssl_certificate.py] and the
    properties of its classifier ([check_cert_expiry]), its prober
    ([x509_checkend]) and its command-line entry point.

    Conventions of the embedding:
    - a Python [str] is the list of its Unicode code points, [bytes] is a
      list of [byte];
    - a Python [int] is a [Z];
    - a Python [dict] with string keys is a [gmap string pyval];
    - the outside world (the [openssl] child process) is an oracle that
      answers the n-th spawned command line; every spawn is logged;
    - a Python exception that leaves a function is a [Raises] result. *)

From Stdlib Require Import ZArith NArith String Ascii List DecimalString.
From Stdlib.Strings Require Byte.
From Stdlib Require DecimalPos DecimalZ.
From stdpp Require Import gmap strings list fin_maps.

Local Open Scope string_scope.
Local Open Scope list_scope.
Local Open Scope Z_scope.

(** ** Python values *)

Module Py.

(** A [str]: the sequence of its code points. *)
Definition codepoint := N.
Definition str := list codepoint.

(** A string literal of the source (the literals of this program are
    ASCII). *)
Definition lit (s : string) : str :=
  map N_of_ascii (list_ascii_of_string s).

(** [str(n)] for an [int]. *)
Definition str_of_int (n : Z) : str :=
  lit (NilZero.string_of_int (Z.to_int n)).

(** An instance of (a subclass of) [Exception], as caught by
    [except Exception as e]: its class name and [str(e)]. *)
Record Exception := mkException { exc_class : string; exc_str : str }.

(** The values this program stores in a dict. *)
Inductive pyval :=
| VInt (n : Z)
| VStr (s : str)
| VExc (e : Exception).

(** [str(v)], which is what a [{}] field of [str.format] inserts. *)
Definition to_str (v : pyval) : str :=
  match v with
  | VInt n => str_of_int n
  | VStr s => s
  | VExc e => exc_str e
  end.

(** [v == n] for an int literal [n]. *)
Definition eq_int (v : pyval) (n : Z) : bool :=
  match v with
  | VInt m => m =? n
  | _ => false
  end.

(** The exceptions that can leave the functions of this module. *)
Inductive error :=
| NameError (name : string)
| KeyError (key : string)
| IndexError
| UnicodeDecodeError (input : list Byte.byte).

Inductive result (A : Type) :=
| Returns (a : A)
| Raises (e : error).
Arguments Returns {A} a.
Arguments Raises {A} e.

Definition rbind {A B} (r : result A) (k : A -> result B) : result B :=
  match r with
  | Returns a => k a
  | Raises e => Raises e
  end.

Definition rmap {A B} (f : A -> B) (r : result A) : result B :=
  rbind r (fun a => Returns (f a)).

(** [d[key]] *)
Definition getitem (d : gmap string pyval) (key : string) : result pyval :=
  match d !! key with
  | Some v => Returns v
  | None => Raises (KeyError key)
  end.

(** [template.format(a, b, ...)] for templates whose only replacement
    fields are [{}] (automatic numbering, no conversion, no format
    spec), which is all the templates of this program use. *)
Fixpoint format (template : string) (args : list pyval) : result str :=
  match template with
  | EmptyString => Returns []
  | String "{"%char (String "}"%char rest) =>
      match args with
      | [] => Raises IndexError
      | a :: args' => rmap (app (to_str a)) (format rest args')
      end
  | String c rest => rmap (cons (N_of_ascii c)) (format rest args)
  end.

(** *** [bytes.decode('UTF-8')]

    The strict UTF-8 decoder: shortest-form sequences only, no
    surrogates, nothing above U+10FFFF; anything else raises
    [UnicodeDecodeError]. *)

Definition between (lo hi b : N) : bool := ((lo <=? b) && (b <=? hi))%N.

(** [10xxxxxx] *)
Definition continuation (b : N) : bool := between 0x80 0xBF b.

Definition low6 (b : N) : N := N.land b 0x3F.

(** Is [b1] an admissible second byte after the lead byte [b0] of a
    three-byte sequence? *)
Definition second_of_3 (b0 b1 : N) : bool :=
  if (b0 =? 0xE0)%N then between 0xA0 0xBF b1
  else if (b0 =? 0xED)%N then between 0x80 0x9F b1
  else between 0xE1 0xEF b0 && continuation b1.

(** Likewise for a four-byte sequence. *)
Definition second_of_4 (b0 b1 : N) : bool :=
  if (b0 =? 0xF0)%N then between 0x90 0xBF b1
  else if (b0 =? 0xF4)%N then between 0x80 0x8F b1
  else between 0xF1 0xF3 b0 && continuation b1.

Fixpoint utf8 (bs : list N) : option str :=
  match bs with
  | [] => Some []
  | b0 :: r1 =>
      if (b0 <? 0x80)%N then cons b0 <$> utf8 r1
      else
        match r1 with
        | [] => None
        | b1 :: r2 =>
            if between 0xC2 0xDF b0 then
              if continuation b1
              then cons (N.lor (N.shiftl (N.land b0 0x1F) 6) (low6 b1))
                     <$> utf8 r2
              else None
            else
              match r2 with
              | [] => None
              | b2 :: r3 =>
                  if between 0xE0 0xEF b0 then
                    if second_of_3 b0 b1 && continuation b2
                    then cons (N.lor (N.shiftl (N.land b0 0x0F) 12)
                                 (N.lor (N.shiftl (low6 b1) 6) (low6 b2)))
                           <$> utf8 r3
                    else None
                  else
                    match r3 with
                    | [] => None
                    | b3 :: r4 =>
                        if second_of_4 b0 b1 && continuation b2
                           && continuation b3
                        then cons (N.lor (N.shiftl (N.land b0 0x07) 18)
                                     (N.lor (N.shiftl (low6 b1) 12)
                                        (N.lor (N.shiftl (low6 b2) 6)
                                           (low6 b3))))
                               <$> utf8 r4
                        else None
                    end
              end
        end
  end.

Definition decode_UTF8 (bs : list Byte.byte) : result str :=
  match utf8 (map Byte.to_N bs) with
  | Some s => Returns s
  | None => Raises (UnicodeDecodeError bs)
  end.

(** [a == b] on strings. *)
Definition str_eqb (a b : str) : bool := bool_decide (a = b).

End Py.

Import Py.

(** ** The outside world: spawning [openssl] *)

(** An argv, as passed to [subprocess.Popen]. *)
Definition cmdline := list str.

(** What [subprocess.Popen(cmd, ...)] followed by [communicate()] can do:
    raise an [Exception] (an [OSError] when the binary is missing, a
    [ValueError] for an embedded NUL, ...), or hand back the exit status
    of the child and the bytes it wrote to its two pipes. *)
Inductive popen_outcome :=
| PopenRaises (e : Exception)
| Communicated (returncode : Z) (stdout stderr : list Byte.byte).

(** The environment decides the outcome of the n-th spawn of a run, which
    may depend on the command line (and, through n, on the time at which
    it happens). *)
Record world := World { spawn : nat -> cmdline -> popen_outcome }.

(** A computation that may spawn processes and may raise: it reads the
    world and extends the log of the command lines spawned so far. *)
Definition M (A : Type) : Type :=
  world -> list cmdline -> result A * list cmdline.

Definition ret {A} (a : A) : M A := fun _ calls => (Returns a, calls).

Definition bind {A B} (m : M A) (k : A -> M B) : M B :=
  fun w calls =>
    match m w calls with
    | (Returns a, calls') => k a w calls'
    | (Raises e, calls') => (Raises e, calls')
    end.

Definition lift {A} (r : result A) : M A := fun _ calls => (r, calls).

Notation "'let!' x ':=' m 'in' k" := (bind m (fun x => k))
  (at level 10, x name, m at level 100, k at level 200,
   format "'[v' 'let!'  x  ':='  m  'in' '/' k ']'").

(** [Popen(cmd, stdout=PIPE, stderr=PIPE)] and [communicate()]. *)
Definition Popen_communicate (cmd : cmdline) : M popen_outcome :=
  fun w calls => (Returns (spawn w (List.length calls) cmd), calls ++ [cmd]).

(** ** The module *)

Definition STATUS_OK : Z := 0.
Definition STATUS_WARN : Z := 1.
Definition STATUS_CRIT : Z := 2.
Definition STATUS_UNKNOWN : Z := 3.

(** The [argparse] namespace built by the entry point. *)
Record Namespace := mkNamespace {
  cert_filename : str;
  warn_days : Z;
  crit_days : Z
}.

(** The module globals a function body can see besides the constants and
    the functions: [args] is bound only when the file runs as
    [__main__]. *)
Record globals := Globals { args : option Namespace }.

(** Evaluating the global name [args]. *)
Definition global_args (g : globals) : result Namespace :=
  match args g with
  | Some a => Returns a
  | None => Raises (NameError "args")
  end.

(** [cmd] of [x509_checkend]. *)
Definition checkend_cmd (cert : str) (time : Z) : cmdline :=
  [lit "openssl"; lit "x509"; lit "-checkend"; str_of_int time; lit "-in";
   cert].

Definition x509_checkend (cert : str) (time : Z)
  : M (gmap string pyval) :=
  let cmd := checkend_cmd cert time in
  let! check := Popen_communicate cmd in
  match check with
  | PopenRaises e =>
      ret (<["message" := VExc e]> {["result" := VInt 2]})
  | Communicated returncode stdout stderr =>
      if returncode =? 1 then
        let! text := lift (decode_UTF8 stderr) in
        if negb (str_eqb text (lit "")) then
          let! text := lift (decode_UTF8 stderr) in
          ret (<["message" := VStr text]> {["result" := VInt 2]})
        else
          ret {["result" := VInt 1]}
      else
        ret {["result" := VInt 0]}
  end.

Definition check_cert_expiry (g : globals) (cert : str) (warn crit : Z)
  : M (Z * str) :=
  let! check := x509_checkend cert (crit * 86400) in
  let! result := lift (getitem check "result") in
  if eq_int result 1 then
    let! msg := lift (format
      "CRITICAL: Certificate {} due to expire in less than {} days."
      [VStr cert; VInt crit]) in
    ret (STATUS_CRIT, msg)
  else
  let! result := lift (getitem check "result") in
  if eq_int result 2 then
    let! message := lift (getitem check "message") in
    let! msg := lift (format
      "UNKNOWN: checking certificate {} failed with {}"
      [VStr cert; message]) in
    ret (STATUS_UNKNOWN, msg)
  else
  let! check := x509_checkend cert (warn * 86400) in
  let! result := lift (getitem check "result") in
  if eq_int result 1 then
    let! args := lift (global_args g) in
    let! msg := lift (format
      "WARNING: Certificate {} due to expire in less than {} days."
      [VStr (cert_filename args); VInt warn]) in
    ret (STATUS_WARN, msg)
  else
    let! msg := lift (format
      "OK: Certificate {} has more than {} days before expiry"
      [VStr cert; VInt warn]) in
    ret (STATUS_OK, msg).

(** *** The entry point

    What a run leaves behind: the text written to standard output, the
    exit status, and the command lines it spawned. *)
Record process := Process {
  stdout_text : str;
  exit_status : Z;
  spawned : list cmdline
}.

Definition newline : str := [10%N].

(** [print(msg)] *)
Definition print (msg : str) : str := msg ++ newline.

(** The body of [if __name__ == '__main__':] after argument parsing, for
    the parsed namespace [a].  An exception that nothing catches ends the
    interpreter with a traceback on standard error and exit status 1. *)
Definition main (a : Namespace) (w : world) : process :=
  let g := Globals (Some a) in
  match check_cert_expiry g (cert_filename a) (warn_days a) (crit_days a)
          w [] with
  | (Returns (status, msg), calls) =>
      Process (print msg)
        (if status =? STATUS_CRIT then STATUS_CRIT
         else if status =? STATUS_WARN then STATUS_WARN
         else if status =? STATUS_UNKNOWN then STATUS_UNKNOWN
         else 0)
        calls
  | (Raises _, calls) => Process [] 1 calls
  end.


(** ** The three probe results, as the dicts [x509_checkend] builds *)

Definition NotExpiring : gmap string pyval := {["result" := VInt 0]}.
Definition Expiring : gmap string pyval := {["result" := VInt 1]}.
Definition Indeterminate (reason : pyval) : gmap string pyval :=
  <["message" := reason]> {["result" := VInt 2]}.

(** The outcome of the spawn a probe performs when [calls] have been
    spawned before it. *)
Definition answer (cert : str) (time : Z) (w : world)
    (calls : list cmdline) : popen_outcome :=
  spawn w (List.length calls) (checkend_cmd cert time).

(** ** The four messages, template by template *)

Definition CRITICAL_msg (path : str) (days : Z) : str :=
  lit "CRITICAL: Certificate " ++ path
    ++ lit " due to expire in less than " ++ str_of_int days
    ++ lit " days.".

Definition UNKNOWN_msg (path : str) (reason : pyval) : str :=
  lit "UNKNOWN: checking certificate " ++ path
    ++ lit " failed with " ++ to_str reason.

Definition WARNING_msg (path : str) (days : Z) : str :=
  lit "WARNING: Certificate " ++ path
    ++ lit " due to expire in less than " ++ str_of_int days
    ++ lit " days.".

Definition OK_msg (path : str) (days : Z) : str :=
  lit "OK: Certificate " ++ path ++ lit " has more than "
    ++ str_of_int days ++ lit " days before expiry".

(** The classification of a run: what [check_cert_expiry] hands to the
    entry point for the parsed namespace [a]. *)
Definition classification (a : Namespace) (w : world) : result (Z * str) :=
  fst (check_cert_expiry (Globals (Some a)) (cert_filename a) (warn_days a)
         (crit_days a) w []).

(** ** Concrete runs *)

Module Scenario.

Definition pem : str := lit "/etc/ssl/certs/server.pem".

(** A world that answers the first spawn with [first] and every later
    one with [second]. *)
Definition answers (first second : popen_outcome) : world :=
  World (fun n _ => match n with O => first | _ => second end).

(** [openssl] exits with [rc] and prints nothing. *)
Definition silent (rc : Z) : popen_outcome := Communicated rc [] [].

(** [openssl] exits with [rc] after printing [text] and a line
    terminator on its standard error. *)
Definition complains (rc : Z) (text : string) : popen_outcome :=
  Communicated rc [] (list_byte_of_string text ++ [Byte.x0a]).

(** The binary is not installed. *)
Definition no_openssl : Exception :=
  mkException "FileNotFoundError"
    (lit "[Errno 2] No such file or directory: 'openssl'").

(** A diagnostic in Latin-1: the bytes of [caf\xe9.pem]. *)
Definition latin1 : list Byte.byte :=
  list_byte_of_string "caf" ++ [Byte.xe9] ++ list_byte_of_string ".pem"
    ++ [Byte.x0a].

Definition defaults (path : str) : Namespace := mkNamespace path 14 7.

(** Some worlds. *)
Definition openssl_missing : world :=
  answers (PopenRaises no_openssl) (PopenRaises no_openssl).
Definition expires_in_3_days : world := answers (silent 1) (silent 1).
Definition expires_in_10_days : world := answers (silent 0) (silent 1).
Definition expires_in_a_year : world := answers (silent 0) (silent 0).
Definition unreadable_certificate : world :=
  answers (complains 1 "unable to load certificate")
    (complains 1 "unable to load certificate").
(** The same certificate, with the verdict [openssl] prints on its
    standard output. *)
Definition expires_in_10_days_verbose : world :=
  answers
    (Communicated 0 (list_byte_of_string "Certificate will not expire") [])
    (Communicated 1 (list_byte_of_string "Certificate will expire") []).
Definition warning_probe_fails : world :=
  answers (silent 0) (complains 1 "unable to load certificate").
Definition fails_with_status_2 : world :=
  answers (complains 2 "unable to load certificate")
    (complains 2 "unable to load certificate").
Definition latin1_diagnostic : world :=
  answers (Communicated 1 [] latin1) (Communicated 1 [] latin1).
Definition garbage_on_stderr : world :=
  answers (Communicated 1 [] [Byte.xff]) (Communicated 1 [] [Byte.xff]).

End Scenario.

(** ** Basic facts about the embedding *)

(** The decoder on a few inputs: two-, three- and four-byte sequences;
    an overlong form, a surrogate, a truncated sequence and a stray
    continuation byte. *)
Example utf8_accepts :
  utf8 [0x41; 0xC3; 0xA9; 0xE2; 0x82; 0xAC; 0xF0; 0x9F; 0x98; 0x80]%N
  = Some [0x41; 0xE9; 0x20AC; 0x1F600]%N.
Proof. reflexivity. Qed.

Example utf8_rejects :
  map utf8 [[0xC0; 0x80]; [0xED; 0xA0; 0x80]; [0xE2; 0x82]; [0x80];
            [0xF4; 0x90; 0x80; 0x80]; [0xFF]]%N
  = [None; None; None; None; None; None].
Proof. reflexivity. Qed.

Example str_of_int_examples :
  map str_of_int [0; 7 * 86400; -3]
  = [lit "0"; lit "604800"; lit "-3"].
Proof. reflexivity. Qed.

(** The four scenarios of a run with the default thresholds. *)
Example scenario_exit_statuses :
  map (fun w => exit_status (main (Scenario.defaults Scenario.pem) w))
    [Scenario.expires_in_a_year; Scenario.expires_in_10_days;
     Scenario.expires_in_3_days; Scenario.openssl_missing]
  = [0; 1; 2; 3].
Proof. vm_compute. reflexivity. Qed.

Section Monad.
Context {A B : Type}.

Lemma bind_returns (m : M A) (k : A -> M B) w calls a calls' :
  m w calls = (Returns a, calls') -> bind m k w calls = k a w calls'.
Proof. intros E. unfold bind. now rewrite E. Qed.

Lemma bind_raises (m : M A) (k : A -> M B) w calls e calls' :
  m w calls = (Raises e, calls') ->
  bind m k w calls = (Raises e, calls').
Proof. intros E. unfold bind. now rewrite E. Qed.

Lemma bind_lift_returns (a : A) (k : A -> M B) w calls :
  bind (lift (Returns a)) k w calls = k a w calls.
Proof. reflexivity. Qed.

Lemma bind_lift_raises e (k : A -> M B) w calls :
  bind (lift (Raises e)) k w calls = (Raises e, calls).
Proof. reflexivity. Qed.
End Monad.

Section Messages.
Variables (path : str) (days : Z) (reason : pyval).

Lemma format_CRITICAL :
  format "CRITICAL: Certificate {} due to expire in less than {} days."
    [VStr path; VInt days] = Returns (CRITICAL_msg path days).
Proof. reflexivity. Qed.

Lemma format_UNKNOWN :
  format "UNKNOWN: checking certificate {} failed with {}"
    [VStr path; reason] = Returns (UNKNOWN_msg path reason).
Proof. unfold UNKNOWN_msg. simpl. now rewrite app_nil_r. Qed.

Lemma format_WARNING :
  format "WARNING: Certificate {} due to expire in less than {} days."
    [VStr path; VInt days] = Returns (WARNING_msg path days).
Proof. reflexivity. Qed.

Lemma format_OK :
  format "OK: Certificate {} has more than {} days before expiry"
    [VStr path; VInt days] = Returns (OK_msg path days).
Proof. reflexivity. Qed.
End Messages.

Section Dicts.
Variable reason : pyval.

Lemma getitem_Indeterminate_result :
  getitem (Indeterminate reason) "result" = Returns (VInt 2).
Proof. reflexivity. Qed.

Lemma getitem_Indeterminate_message :
  getitem (Indeterminate reason) "message" = Returns reason.
Proof. reflexivity. Qed.

Lemma getitem_Expiring_result :
  getitem Expiring "result" = Returns (VInt 1).
Proof. reflexivity. Qed.

Lemma getitem_NotExpiring_result :
  getitem NotExpiring "result" = Returns (VInt 0).
Proof. reflexivity. Qed.
End Dicts.

(** The only exception [decode_UTF8] raises. *)
Lemma decode_UTF8_raises bs e :
  decode_UTF8 bs = Raises e -> e = UnicodeDecodeError bs.
Proof. unfold decode_UTF8. destruct (utf8 _); congruence. Qed.

(** *** The prober *)

Section Prober.
Variables (cert : str) (time : Z) (w : world) (calls : list cmdline).

(** Every probe spawns exactly one command, the [-checkend] query. *)
Lemma x509_checkend_spawns :
  snd (x509_checkend cert time w calls)
  = calls ++ [checkend_cmd cert time].
Proof.
  unfold x509_checkend, bind, Popen_communicate, lift, ret.
  destruct (spawn w _ _) as [e | rc out err]; [reflexivity |].
  destruct (rc =? 1); [| reflexivity].
  destruct (decode_UTF8 err) as [text | e]; [| reflexivity].
  destruct (negb _); reflexivity.
Qed.

Lemma x509_checkend_eq r :
  fst (x509_checkend cert time w calls) = r ->
  x509_checkend cert time w calls = (r, calls ++ [checkend_cmd cert time]).
Proof.
  intros <-. rewrite <- x509_checkend_spawns. apply surjective_pairing.
Qed.

Lemma x509_checkend_raised e :
  answer cert time w calls = PopenRaises e ->
  fst (x509_checkend cert time w calls) = Returns (Indeterminate (VExc e)).
Proof.
  unfold answer, x509_checkend, bind, Popen_communicate.
  now intros ->.
Qed.

Lemma x509_checkend_other_status rc out err :
  answer cert time w calls = Communicated rc out err -> rc <> 1 ->
  fst (x509_checkend cert time w calls) = Returns NotExpiring.
Proof.
  unfold answer, x509_checkend, bind, Popen_communicate.
  intros -> Hrc. apply Z.eqb_neq in Hrc. now rewrite Hrc.
Qed.

Lemma x509_checkend_silent out err :
  answer cert time w calls = Communicated 1 out err ->
  decode_UTF8 err = Returns [] ->
  fst (x509_checkend cert time w calls) = Returns Expiring.
Proof.
  unfold answer, x509_checkend, bind, Popen_communicate, lift.
  intros -> ->. reflexivity.
Qed.

Lemma x509_checkend_diagnostic out err text :
  answer cert time w calls = Communicated 1 out err ->
  decode_UTF8 err = Returns text -> text <> [] ->
  fst (x509_checkend cert time w calls)
  = Returns (Indeterminate (VStr text)).
Proof.
  unfold answer, x509_checkend, bind, Popen_communicate, lift.
  intros -> -> Hne. simpl.
  unfold str_eqb. rewrite bool_decide_eq_false_2 by exact Hne.
  reflexivity.
Qed.

Lemma x509_checkend_undecodable out err e :
  answer cert time w calls = Communicated 1 out err ->
  decode_UTF8 err = Raises e ->
  fst (x509_checkend cert time w calls) = Raises e.
Proof.
  unfold answer, x509_checkend, bind, Popen_communicate, lift.
  now intros -> ->.
Qed.

(** All a probe can do: return one of the three dicts, or let the
    [UnicodeDecodeError] of [stderr.decode] escape. *)
Lemma x509_checkend_cases :
  fst (x509_checkend cert time w calls) = Returns NotExpiring
  \/ fst (x509_checkend cert time w calls) = Returns Expiring
  \/ (exists reason,
        fst (x509_checkend cert time w calls)
        = Returns (Indeterminate reason))
  \/ (exists bs,
        fst (x509_checkend cert time w calls)
        = Raises (UnicodeDecodeError bs)).
Proof.
  destruct (answer cert time w calls) as [e | rc out err] eqn:Ea.
  - right; right; left. exists (VExc e).
    apply x509_checkend_raised, Ea.
  - destruct (Z.eq_dec rc 1) as [-> | Hrc].
    + destruct (decode_UTF8 err) as [text | e] eqn:Ed.
      * destruct text as [| c text'].
        -- right; left. apply (x509_checkend_silent out err Ea Ed).
        -- right; right; left. exists (VStr (c :: text')).
           apply (x509_checkend_diagnostic out err _ Ea Ed). discriminate.
      * right; right; right. exists err.
        pose proof (decode_UTF8_raises _ _ Ed) as ->.
        apply (x509_checkend_undecodable out err _ Ea Ed).
    + left. apply (x509_checkend_other_status rc out err Ea Hrc).
Qed.
End Prober.

(** *** The classifier, probe result by probe result *)

Ltac probe H :=
  first [ rewrite (bind_returns _ _ _ _ _ _ (x509_checkend_eq _ _ _ _ _ H))
        | rewrite (bind_raises _ _ _ _ _ _ (x509_checkend_eq _ _ _ _ _ H)) ].

Ltac run :=
  repeat first
    [ progress cbv beta
    | rewrite getitem_Indeterminate_result
    | rewrite getitem_Indeterminate_message
    | rewrite getitem_Expiring_result
    | rewrite getitem_NotExpiring_result
    | rewrite format_CRITICAL | rewrite format_UNKNOWN
    | rewrite format_WARNING | rewrite format_OK
    | rewrite bind_lift_returns
    | rewrite bind_lift_raises
    | progress cbn [eq_int Z.eqb Pos.eqb] ].

Section Classifier.
Variables (g : globals) (cert : str) (warn crit : Z).
Variables (w : world) (calls : list cmdline).

Local Abbreviation crit_cmd := (checkend_cmd cert (crit * 86400)).
Local Abbreviation warn_cmd := (checkend_cmd cert (warn * 86400)).
Local Abbreviation crit_probe := (fst (x509_checkend cert (crit * 86400) w calls)).
Local Abbreviation warn_probe :=
  (fst (x509_checkend cert (warn * 86400) w (calls ++ [crit_cmd]))).

Lemma check_crit_expiring :
  crit_probe = Returns Expiring ->
  check_cert_expiry g cert warn crit w calls
  = (Returns (STATUS_CRIT, CRITICAL_msg cert crit), calls ++ [crit_cmd]).
Proof. intros H. unfold check_cert_expiry. probe H. now run. Qed.

Lemma check_crit_indeterminate reason :
  crit_probe = Returns (Indeterminate reason) ->
  check_cert_expiry g cert warn crit w calls
  = (Returns (STATUS_UNKNOWN, UNKNOWN_msg cert reason),
     calls ++ [crit_cmd]).
Proof. intros H. unfold check_cert_expiry. probe H. now run. Qed.

Lemma check_crit_raises e :
  crit_probe = Raises e ->
  check_cert_expiry g cert warn crit w calls
  = (Raises e, calls ++ [crit_cmd]).
Proof. intros H. unfold check_cert_expiry. now probe H. Qed.

Lemma check_warn_expiring :
  crit_probe = Returns NotExpiring ->
  warn_probe = Returns Expiring ->
  check_cert_expiry g cert warn crit w calls
  = (rmap (fun a => (STATUS_WARN, WARNING_msg (cert_filename a) warn))
       (global_args g),
     calls ++ [crit_cmd; warn_cmd]).
Proof.
  intros H1 H2. unfold check_cert_expiry. probe H1. run. probe H2. run.
  rewrite <- app_assoc. destruct (global_args g); now run.
Qed.

Lemma check_warn_not_expiring :
  crit_probe = Returns NotExpiring ->
  warn_probe = Returns NotExpiring ->
  check_cert_expiry g cert warn crit w calls
  = (Returns (STATUS_OK, OK_msg cert warn), calls ++ [crit_cmd; warn_cmd]).
Proof.
  intros H1 H2. unfold check_cert_expiry. probe H1. run. probe H2. run.
  now rewrite <- app_assoc.
Qed.

Lemma check_warn_indeterminate reason :
  crit_probe = Returns NotExpiring ->
  warn_probe = Returns (Indeterminate reason) ->
  check_cert_expiry g cert warn crit w calls
  = (Returns (STATUS_OK, OK_msg cert warn), calls ++ [crit_cmd; warn_cmd]).
Proof.
  intros H1 H2. unfold check_cert_expiry. probe H1. run. probe H2. run.
  now rewrite <- app_assoc.
Qed.

Lemma check_warn_raises e :
  crit_probe = Returns NotExpiring ->
  warn_probe = Raises e ->
  check_cert_expiry g cert warn crit w calls
  = (Raises e, calls ++ [crit_cmd; warn_cmd]).
Proof.
  intros H1 H2. unfold check_cert_expiry. probe H1. run. probe H2.
  now rewrite <- app_assoc.
Qed.
End Classifier.

(** Rewrite [check_cert_expiry] by whichever case the hypotheses on the
    two probes select. *)
Ltac classify :=
  first
    [ erewrite check_crit_expiring by eassumption
    | erewrite check_crit_indeterminate by eassumption
    | erewrite check_crit_raises by eassumption
    | erewrite check_warn_expiring by eassumption
    | erewrite check_warn_not_expiring by eassumption
    | erewrite check_warn_indeterminate by eassumption
    | erewrite check_warn_raises by eassumption ].

Section Classification.
Variables (g : globals) (cert : str) (warn crit : Z).
Variables (w : world) (calls : list cmdline).

Local Abbreviation crit_cmd := (checkend_cmd cert (crit * 86400)).
Local Abbreviation warn_cmd := (checkend_cmd cert (warn * 86400)).


(** Everything the classifier can do. *)
Lemma check_cert_expiry_cases :
  fst (check_cert_expiry g cert warn crit w calls)
  = Returns (STATUS_OK, OK_msg cert warn)
  \/ (exists a, args g = Some a /\
        fst (check_cert_expiry g cert warn crit w calls)
        = Returns (STATUS_WARN, WARNING_msg (cert_filename a) warn))
  \/ fst (check_cert_expiry g cert warn crit w calls)
     = Returns (STATUS_CRIT, CRITICAL_msg cert crit)
  \/ (exists reason,
        fst (check_cert_expiry g cert warn crit w calls)
        = Returns (STATUS_UNKNOWN, UNKNOWN_msg cert reason))
  \/ (exists bs,
        fst (check_cert_expiry g cert warn crit w calls)
        = Raises (UnicodeDecodeError bs))
  \/ (args g = None /\
      fst (check_cert_expiry g cert warn crit w calls)
      = Raises (NameError "args")).
Proof.
  destruct (x509_checkend_cases cert (crit * 86400) w calls)
    as [H1 | [H1 | [[r1 H1] | [b1 H1]]]].
  - destruct (x509_checkend_cases cert (warn * 86400) w (calls ++ [crit_cmd]))
      as [H2 | [H2 | [[r2 H2] | [b2 H2]]]]; classify.
    + now left.
    + unfold global_args. destruct (args g) as [a |] eqn:Eg.
      * right; left. now exists a.
      * do 5 right. now split.
    + now left.
    + do 4 right; left. now exists b2.
  - classify. do 2 right. now left.
  - classify. do 3 right. left. now exists r1.
  - classify. do 4 right. left. now exists b1.
Qed.
End Classification.

(** *** The entry point *)

Lemma main_eq a w :
  main a w
  = match check_cert_expiry (Globals (Some a)) (cert_filename a)
            (warn_days a) (crit_days a) w [] with
    | (Returns (status, msg), calls) =>
        Process (print msg)
          (if status =? STATUS_CRIT then STATUS_CRIT
           else if status =? STATUS_WARN then STATUS_WARN
           else if status =? STATUS_UNKNOWN then STATUS_UNKNOWN
           else 0)
          calls
    | (Raises _, calls) => Process [] 1 calls
    end.
Proof. reflexivity. Qed.

Lemma main_classified a w status msg :
  classification a w = Returns (status, msg) ->
  stdout_text (main a w) = print msg
  /\ exit_status (main a w)
     = (if status =? STATUS_CRIT then STATUS_CRIT
        else if status =? STATUS_WARN then STATUS_WARN
        else if status =? STATUS_UNKNOWN then STATUS_UNKNOWN
        else 0).
Proof.
  unfold classification. rewrite main_eq.
  destruct (check_cert_expiry _ _ _ _ _ _) as [[[s m] | e] c]; simpl;
    intros [= -> ->] || intros [=]. now split.
Qed.

Lemma main_crashed a w e :
  classification a w = Raises e ->
  stdout_text (main a w) = [] /\ exit_status (main a w) = 1.
Proof.
  unfold classification. rewrite main_eq.
  destruct (check_cert_expiry _ _ _ _ _ _) as [[[s m] | e'] c]; simpl;
    intros [=]. now split.
Qed.

(** *** Counting lines *)




(** ** Properties of the classifier *)



(** C2. When the critical-horizon probe returns [NotExpiring] and the
    warning-horizon probe returns [Indeterminate reason], the classifier
    returns [STATUS_OK], which is not [STATUS_UNKNOWN], and the message
    says that the certificate has more than [warn] days before expiry. *)
Theorem warning_indeterminate_is_OK
    (g : globals) (cert : str) (warn crit : Z)
    (w : world) (calls : list cmdline) (reason : pyval) :
  fst (x509_checkend cert (crit * 86400) w calls) = Returns NotExpiring ->
  fst (x509_checkend cert (warn * 86400) w
         (calls ++ [checkend_cmd cert (crit * 86400)]))
  = Returns (Indeterminate reason) ->
  fst (check_cert_expiry g cert warn crit w calls)
  = Returns (STATUS_OK,
             lit "OK: Certificate " ++ cert ++ lit " has more than "
               ++ str_of_int warn ++ lit " days before expiry")
  /\ STATUS_OK <> STATUS_UNKNOWN.
Proof.
  intros H1 H2. split; [| discriminate].
  now rewrite (check_warn_indeterminate g cert warn crit w calls reason H1 H2).
Qed.

Lemma warning_indeterminate_is_OK_witness :
  fst (x509_checkend Scenario.pem (7 * 86400)
         Scenario.warning_probe_fails [])
  = Returns NotExpiring
  /\ fst (x509_checkend Scenario.pem (14 * 86400)
            Scenario.warning_probe_fails
            ([] ++ [checkend_cmd Scenario.pem (7 * 86400)]))
     = Returns (Indeterminate
                  (VStr (lit "unable to load certificate" ++ newline)))
  /\ fst (check_cert_expiry (Globals None) Scenario.pem 14 7
            Scenario.warning_probe_fails [])
     = Returns (STATUS_OK,
                lit "OK: Certificate " ++ Scenario.pem
                  ++ lit " has more than " ++ str_of_int 14
                  ++ lit " days before expiry").
Proof.
  assert (H1 : fst (x509_checkend Scenario.pem (7 * 86400)
                      Scenario.warning_probe_fails [])
               = Returns NotExpiring) by (vm_compute; reflexivity).
  assert (H2 : fst (x509_checkend Scenario.pem (14 * 86400)
                      Scenario.warning_probe_fails
                      ([] ++ [checkend_cmd Scenario.pem (7 * 86400)]))
               = Returns (Indeterminate
                            (VStr (lit "unable to load certificate"
                                     ++ newline))))
    by (vm_compute; reflexivity).
  split; [exact H1 |]. split; [exact H2 |].
  exact (proj1 (warning_indeterminate_is_OK (Globals None) Scenario.pem 14 7
                  Scenario.warning_probe_fails [] _ H1 H2)).
Defined.

(** C3, as the code has it. When the critical-horizon probe returns
    [Indeterminate reason], the classifier returns [STATUS_UNKNOWN] with
    the message "UNKNOWN: checking certificate <path> failed with
    <reason>", whatever [warn] is, having spawned the critical-horizon
    command only. *)
Theorem critical_indeterminate_is_UNKNOWN
    (g : globals) (cert : str) (warn crit : Z)
    (w : world) (calls : list cmdline) (reason : pyval) :
  fst (x509_checkend cert (crit * 86400) w calls)
  = Returns (Indeterminate reason) ->
  check_cert_expiry g cert warn crit w calls
  = (Returns (STATUS_UNKNOWN,
              lit "UNKNOWN: checking certificate " ++ cert
                ++ lit " failed with " ++ to_str reason),
     calls ++ [checkend_cmd cert (crit * 86400)]).
Proof. apply check_crit_indeterminate. Qed.

Lemma critical_indeterminate_is_UNKNOWN_witness :
  fst (x509_checkend Scenario.pem (7 * 86400) Scenario.openssl_missing [])
  = Returns (Indeterminate (VExc Scenario.no_openssl))
  /\ check_cert_expiry (Globals None) Scenario.pem 14 7
       Scenario.openssl_missing []
     = (Returns (STATUS_UNKNOWN,
                 lit "UNKNOWN: checking certificate " ++ Scenario.pem
                   ++ lit " failed with "
                   ++ to_str (VExc Scenario.no_openssl)),
        [] ++ [checkend_cmd Scenario.pem (7 * 86400)]).
Proof.
  assert (H : fst (x509_checkend Scenario.pem (7 * 86400)
                     Scenario.openssl_missing [])
              = Returns (Indeterminate (VExc Scenario.no_openssl)))
    by (vm_compute; reflexivity).
  split; [exact H |].
  exact (critical_indeterminate_is_UNKNOWN (Globals None) Scenario.pem 14 7
           Scenario.openssl_missing [] _ H).
Defined.

(** C3, as the specification words it, fails: the message the classifier
    returns starts with "UNKNOWN: ", so it is not
    "checking certificate <path> failed with <reason>". *)
Lemma critical_indeterminate_message_counterexample :
  fst (x509_checkend Scenario.pem (7 * 86400) Scenario.openssl_missing [])
  = Returns (Indeterminate (VExc Scenario.no_openssl))
  /\ fst (check_cert_expiry (Globals None) Scenario.pem 14 7
            Scenario.openssl_missing [])
     <> Returns (STATUS_UNKNOWN,
                 lit "checking certificate " ++ Scenario.pem
                   ++ lit " failed with "
                   ++ to_str (VExc Scenario.no_openssl)).
Proof.
  split; [vm_compute; reflexivity |].
  vm_compute. discriminate.
Qed.

(** C5, at a failing input. The WARNING message is built from the module
    global [args], not from the [cert_filename] argument: called from a
    module in which [args] is unbound, the classifier raises [NameError]
    on the warning path; called where [args] names another file, the
    message names that other file. *)
Theorem warning_message_reads_global_args :
  fst (x509_checkend Scenario.pem (7 * 86400) Scenario.expires_in_10_days [])
  = Returns NotExpiring
  /\ fst (x509_checkend Scenario.pem (14 * 86400)
            Scenario.expires_in_10_days
            [checkend_cmd Scenario.pem (7 * 86400)])
     = Returns Expiring
  /\ fst (check_cert_expiry (Globals None) Scenario.pem 14 7
            Scenario.expires_in_10_days [])
     = Raises (NameError "args")
  /\ fst (check_cert_expiry
            (Globals (Some (Scenario.defaults (lit "/tmp/other.pem"))))
            Scenario.pem 14 7 Scenario.expires_in_10_days [])
     = Returns (STATUS_WARN,
                lit "WARNING: Certificate " ++ lit "/tmp/other.pem"
                  ++ lit " due to expire in less than " ++ str_of_int 14
                  ++ lit " days.").
Proof. repeat split; vm_compute; reflexivity. Qed.

(** ** Properties of the prober *)

(** C4, at a failing input. [openssl] exits with status 1 and its
    diagnostic is not UTF-8 (here Latin-1): [stderr.decode('UTF-8')],
    which runs outside the [try], raises [UnicodeDecodeError], and
    [x509_checkend] lets it through. *)
Theorem x509_checkend_lets_UnicodeDecodeError_escape :
  answer Scenario.pem 604800 Scenario.latin1_diagnostic []
  = Communicated 1 [] Scenario.latin1
  /\ x509_checkend Scenario.pem 604800 Scenario.latin1_diagnostic []
     = (Raises (UnicodeDecodeError Scenario.latin1),
        [checkend_cmd Scenario.pem 604800]).
Proof. split; vm_compute; reflexivity. Qed.

(** C6, as the code has it. The prober returns [Indeterminate] with the
    exception as the reason whenever spawning [openssl] raises; and with
    the decoded diagnostic as the reason whenever [openssl] exits with
    status 1 having written UTF-8 text, not empty, to its standard
    error.  For every other exit status it returns [NotExpiring],
    whatever was written. *)
Theorem x509_checkend_indeterminate
    (cert : str) (time : Z) (w : world) (calls : list cmdline) :
  (forall e,
     answer cert time w calls = PopenRaises e ->
     fst (x509_checkend cert time w calls)
     = Returns (Indeterminate (VExc e)))
  /\ (forall out err text,
        answer cert time w calls = Communicated 1 out err ->
        decode_UTF8 err = Returns text -> text <> [] ->
        fst (x509_checkend cert time w calls)
        = Returns (Indeterminate (VStr text)))
  /\ (forall rc out err,
        answer cert time w calls = Communicated rc out err -> rc <> 1 ->
        fst (x509_checkend cert time w calls) = Returns NotExpiring).
Proof.
  split; [| split].
  - apply x509_checkend_raised.
  - apply x509_checkend_diagnostic.
  - apply x509_checkend_other_status.
Qed.

Lemma x509_checkend_indeterminate_witness :
  (answer Scenario.pem 604800 Scenario.openssl_missing []
   = PopenRaises Scenario.no_openssl
   /\ fst (x509_checkend Scenario.pem 604800 Scenario.openssl_missing [])
      = Returns (Indeterminate (VExc Scenario.no_openssl)))
  /\ (answer Scenario.pem 604800 Scenario.unreadable_certificate []
      = Scenario.complains 1 "unable to load certificate"
      /\ fst (x509_checkend Scenario.pem 604800
                Scenario.unreadable_certificate [])
         = Returns (Indeterminate
                      (VStr (lit "unable to load certificate" ++ newline))))
  /\ (answer Scenario.pem 604800 Scenario.fails_with_status_2 []
      = Scenario.complains 2 "unable to load certificate"
      /\ fst (x509_checkend Scenario.pem 604800
                Scenario.fails_with_status_2 [])
         = Returns NotExpiring).
Proof.
  split; [| split].
  - split; [reflexivity |].
    apply (proj1 (x509_checkend_indeterminate Scenario.pem 604800
                    Scenario.openssl_missing [])).
    reflexivity.
  - split; [reflexivity |].
    apply (proj1 (proj2 (x509_checkend_indeterminate Scenario.pem 604800
                           Scenario.unreadable_certificate []))
             [] (list_byte_of_string "unable to load certificate"
                   ++ [Byte.x0a])).
    + reflexivity.
    + vm_compute; reflexivity.
    + vm_compute; discriminate.
  - split; [reflexivity |].
    apply (proj2 (proj2 (x509_checkend_indeterminate Scenario.pem 604800
                           Scenario.fails_with_status_2 []))
             2 [] (list_byte_of_string "unable to load certificate"
                     ++ [Byte.x0a])).
    + reflexivity.
    + lia.
Defined.

(** C6, as stated, fails: [openssl] exits with status 2 after writing a
    diagnostic, and the prober returns [NotExpiring], not
    [Indeterminate]. *)
Lemma x509_checkend_status_2_counterexample :
  answer Scenario.pem 604800 Scenario.fails_with_status_2 []
  = Scenario.complains 2 "unable to load certificate"
  /\ fst (x509_checkend Scenario.pem 604800 Scenario.fails_with_status_2 [])
     = Returns NotExpiring
  /\ forall reason,
       fst (x509_checkend Scenario.pem 604800
              Scenario.fails_with_status_2 [])
       <> Returns (Indeterminate reason).
Proof.
  split; [reflexivity |]. split; [vm_compute; reflexivity |].
  intros reason H.
  assert (E : fst (x509_checkend Scenario.pem 604800
                     Scenario.fails_with_status_2 [])
              = Returns NotExpiring) by (vm_compute; reflexivity).
  rewrite E in H.
  apply (f_equal (fun r => rbind r (fun d => getitem d "message"))) in H.
  vm_compute in H. discriminate H.
Qed.

(** The shape of every dict the prober returns: a ["result"] in
    [{0, 1, 2}], and a ["message"] whenever the result is 2. *)
Lemma x509_checkend_dict_shape
    (cert : str) (time : Z) (w : world) (calls : list cmdline)
    (d : gmap string pyval) :
  fst (x509_checkend cert time w calls) = Returns d ->
  exists n, d !! "result" = Some (VInt n)
            /\ (n = 0 \/ n = 1 \/ n = 2)
            /\ (n = 2 -> is_Some (d !! "message")).
Proof.
  intros H.
  destruct (x509_checkend_cases cert time w calls)
    as [E | [E | [[r E] | [b E]]]]; rewrite E in H.
  - injection H as <-. exists 0. repeat split; [lia | discriminate].
  - injection H as <-. exists 1. repeat split; [lia | discriminate].
  - injection H as <-. exists 2. repeat split; [lia |]. intros _. now exists r.
  - discriminate H.
Qed.

(** So neither [check['result']] nor [check['message']] can fail in the
    classifier. *)
Lemma check_cert_expiry_no_KeyError
    (g : globals) (cert : str) (warn crit : Z)
    (w : world) (calls : list cmdline) (key : string) :
  fst (check_cert_expiry g cert warn crit w calls) <> Raises (KeyError key).
Proof.
  destruct (check_cert_expiry_cases g cert warn crit w calls)
    as [E | [[a [_ E]] | [E | [[r E] | [[b E] | [_ E]]]]]];
    rewrite E; discriminate.
Qed.

(** C10, at a failing input. [openssl] exits with status 1 and the byte
    [0xff] on its standard error: [x509_checkend] returns no dict at all,
    it raises, and so does the classifier. *)
Theorem x509_checkend_returns_no_dict :
  answer Scenario.pem (7 * 86400) Scenario.garbage_on_stderr []
  = Communicated 1 [] [Byte.xff]
  /\ (forall d,
        fst (x509_checkend Scenario.pem (7 * 86400)
               Scenario.garbage_on_stderr [])
        <> Returns d)
  /\ classification (Scenario.defaults Scenario.pem)
       Scenario.garbage_on_stderr
     = Raises (UnicodeDecodeError [Byte.xff]).
Proof.
  split; [reflexivity |]. split; [| vm_compute; reflexivity].
  intros d.
  assert (E : fst (x509_checkend Scenario.pem (7 * 86400)
                     Scenario.garbage_on_stderr [])
              = Raises (UnicodeDecodeError [Byte.xff]))
    by (vm_compute; reflexivity).
  rewrite E. discriminate.
Qed.

(** ** Properties of a run *)







(** The classification is a function of the arguments, the module
    globals and the results of the probes that run. *)
Lemma classification_depends_on_probes
    (g : globals) (cert : str) (warn crit : Z)
    (w1 w2 : world) (calls1 calls2 : list cmdline) :
  fst (x509_checkend cert (crit * 86400) w1 calls1)
  = fst (x509_checkend cert (crit * 86400) w2 calls2) ->
  (fst (x509_checkend cert (crit * 86400) w1 calls1) = Returns NotExpiring ->
   fst (x509_checkend cert (warn * 86400) w1
          (calls1 ++ [checkend_cmd cert (crit * 86400)]))
   = fst (x509_checkend cert (warn * 86400) w2
            (calls2 ++ [checkend_cmd cert (crit * 86400)]))) ->
  fst (check_cert_expiry g cert warn crit w1 calls1)
  = fst (check_cert_expiry g cert warn crit w2 calls2).
Proof.
  intros Hc Hw.
  destruct (x509_checkend_cases cert (crit * 86400) w1 calls1)
    as [H1 | [H1 | [[r1 H1] | [b1 H1]]]];
    pose proof H1 as H1'; rewrite Hc in H1'.
  - specialize (Hw H1).
    destruct (x509_checkend_cases cert (warn * 86400) w1
                (calls1 ++ [checkend_cmd cert (crit * 86400)]))
      as [H2 | [H2 | [[r2 H2] | [b2 H2]]]];
      pose proof H2 as H2'; rewrite Hw in H2'.
    + now rewrite (check_warn_not_expiring g _ _ _ _ _ H1 H2),
        (check_warn_not_expiring g _ _ _ _ _ H1' H2').
    + now rewrite (check_warn_expiring g _ _ _ _ _ H1 H2),
        (check_warn_expiring g _ _ _ _ _ H1' H2').
    + now rewrite (check_warn_indeterminate g _ _ _ _ _ _ H1 H2),
        (check_warn_indeterminate g _ _ _ _ _ _ H1' H2').
    + now rewrite (check_warn_raises g _ _ _ _ _ _ H1 H2),
        (check_warn_raises g _ _ _ _ _ _ H1' H2').
  - now rewrite (check_crit_expiring g _ warn _ _ _ H1),
      (check_crit_expiring g _ warn _ _ _ H1').
  - now rewrite (check_crit_indeterminate g _ warn _ _ _ _ H1),
      (check_crit_indeterminate g _ warn _ _ _ _ H1').
  - now rewrite (check_crit_raises g _ warn _ _ _ _ H1),
      (check_crit_raises g _ warn _ _ _ _ H1').
Qed.

(** C9. For a fixed path and fixed thresholds, two runs in which the
    probes that run yield the same results come to the same
    classification (the same severity and the same message), and so
    write the same text and exit with the same status. *)
Theorem check_is_deterministic (a : Namespace) (w1 w2 : world) :
  fst (x509_checkend (cert_filename a) (crit_days a * 86400) w1 [])
  = fst (x509_checkend (cert_filename a) (crit_days a * 86400) w2 []) ->
  (fst (x509_checkend (cert_filename a) (crit_days a * 86400) w1 [])
   = Returns NotExpiring ->
   fst (x509_checkend (cert_filename a) (warn_days a * 86400) w1
          [checkend_cmd (cert_filename a) (crit_days a * 86400)])
   = fst (x509_checkend (cert_filename a) (warn_days a * 86400) w2
            [checkend_cmd (cert_filename a) (crit_days a * 86400)])) ->
  classification a w1 = classification a w2
  /\ stdout_text (main a w1) = stdout_text (main a w2)
  /\ exit_status (main a w1) = exit_status (main a w2).
Proof.
  intros Hc Hw.
  assert (E : classification a w1 = classification a w2)
    by (apply classification_depends_on_probes; assumption).
  split; [exact E |].
  destruct (classification a w2) as [[status msg] | e] eqn:E2.
  - destruct (main_classified a w1 status msg E) as [-> ->].
    destruct (main_classified a w2 status msg E2) as [-> ->]. now split.
  - destruct (main_crashed a w1 e E) as [-> ->].
    destruct (main_crashed a w2 e E2) as [-> ->]. now split.
Qed.

Lemma check_is_deterministic_witness :
  fst (x509_checkend Scenario.pem (7 * 86400) Scenario.expires_in_10_days [])
  = fst (x509_checkend Scenario.pem (7 * 86400)
           Scenario.expires_in_10_days_verbose [])
  /\ fst (x509_checkend Scenario.pem (14 * 86400)
            Scenario.expires_in_10_days
            [checkend_cmd Scenario.pem (7 * 86400)])
     = fst (x509_checkend Scenario.pem (14 * 86400)
              Scenario.expires_in_10_days_verbose
              [checkend_cmd Scenario.pem (7 * 86400)])
  /\ classification (Scenario.defaults Scenario.pem)
       Scenario.expires_in_10_days
     = classification (Scenario.defaults Scenario.pem)
         Scenario.expires_in_10_days_verbose.
Proof.
  assert (Hc : fst (x509_checkend Scenario.pem (7 * 86400)
                      Scenario.expires_in_10_days [])
               = fst (x509_checkend Scenario.pem (7 * 86400)
                        Scenario.expires_in_10_days_verbose []))
    by (vm_compute; reflexivity).
  assert (Hw : fst (x509_checkend Scenario.pem (14 * 86400)
                      Scenario.expires_in_10_days
                      [checkend_cmd Scenario.pem (7 * 86400)])
               = fst (x509_checkend Scenario.pem (14 * 86400)
                        Scenario.expires_in_10_days_verbose
                        [checkend_cmd Scenario.pem (7 * 86400)]))
    by (vm_compute; reflexivity).
  split; [exact Hc |]. split; [exact Hw |].
  exact (proj1 (check_is_deterministic (Scenario.defaults Scenario.pem)
                  Scenario.expires_in_10_days
                  Scenario.expires_in_10_days_verbose Hc (fun _ => Hw))).
Defined.

(** ** More about the prober *)

(** Two probe results with different ["result"] fields differ. *)
Ltac absurd_probe H :=
  apply (f_equal (fun r => rbind r (fun d => getitem d "result"))) in H;
  vm_compute in H; discriminate H.

Lemma getitem_Indeterminate_message_rbind (r : pyval) :
  rbind (Returns (Indeterminate r)) (fun d => getitem d "message")
  = Returns r.
Proof. reflexivity. Qed.

Lemma Indeterminate_inj (r r' : pyval) :
  Returns (Indeterminate r) = Returns (Indeterminate r') -> r = r'.
Proof.
  intros H.
  apply (f_equal (fun r => rbind r (fun d => getitem d "message"))) in H.
  rewrite !getitem_Indeterminate_message_rbind in H. now injection H.
Qed.

(** Decoding yields the empty string for the empty input only. *)
Lemma utf8_nil_inv (bs : list N) : utf8 bs = Some [] -> bs = [].
Proof.
  destruct bs as [| b0 r1]; [reflexivity |]. simpl.
  intros H. exfalso.
  repeat match type of H with
         | (if ?c then _ else _) = _ => destruct c
         | match ?l with [] => _ | _ :: _ => _ end = _ => destruct l
         | _ <$> ?o = _ => destruct o; simpl in H
         end; discriminate H.
Qed.

Lemma decode_UTF8_nil_inv (bs : list Byte.byte) :
  decode_UTF8 bs = Returns [] -> bs = [].
Proof.
  unfold decode_UTF8. destruct (utf8 _) as [s |] eqn:E; [| discriminate].
  intros [= ->]. apply utf8_nil_inv in E. now destruct bs.
Qed.

(** ASCII decodes to itself. *)
Lemma utf8_ascii (bs : list N) :
  forallb (fun b => b <? 0x80)%N bs = true -> utf8 bs = Some bs.
Proof.
  induction bs as [| b r IH]; [reflexivity |].
  simpl forallb. intros [Hb Hr]%andb_prop. simpl.
  rewrite Hb, (IH Hr). reflexivity.
Qed.

Lemma forallb_to_N (p : N -> bool) (bs : list Byte.byte) :
  forallb (fun b => p (Byte.to_N b)) bs = true ->
  forallb p (map Byte.to_N bs) = true.
Proof.
  induction bs as [| b r IH]; [reflexivity |]. simpl.
  intros [-> Hr]%andb_prop. now apply IH.
Qed.

Section ProberVerdicts.
Variables (cert : str) (time : Z) (w : world) (calls : list cmdline).

Local Abbreviation probe := (fst (x509_checkend cert time w calls)).
Local Abbreviation reply := (answer cert time w calls).

(** The probe reports [Expiring] exactly when [openssl] exits with
    status 1 and an empty standard error. *)
Theorem x509_checkend_Expiring_iff :
  probe = Returns Expiring <-> exists out, reply = Communicated 1 out [].
Proof.
  split.
  - intros H. destruct reply as [e | rc out err] eqn:Ea.
    + rewrite (x509_checkend_raised _ _ _ _ e Ea) in H. absurd_probe H.
    + destruct (Z.eq_dec rc 1) as [-> | Hrc].
      * destruct (decode_UTF8 err) as [[| c text] | e] eqn:Ed.
        -- exists out. now rewrite (decode_UTF8_nil_inv err Ed).
        -- rewrite (x509_checkend_diagnostic _ _ _ _ out err _ Ea Ed) in H
             by discriminate.
           absurd_probe H.
        -- rewrite (x509_checkend_undecodable _ _ _ _ out err _ Ea Ed) in H.
           discriminate H.
      * rewrite (x509_checkend_other_status _ _ _ _ rc out err Ea Hrc) in H.
        absurd_probe H.
  - intros [out Ea]. now apply (x509_checkend_silent _ _ _ _ out [] Ea).
Qed.

(** The probe reports [NotExpiring] exactly when [openssl] could be run
    and exits with a status other than 1. *)
Theorem x509_checkend_NotExpiring_iff :
  probe = Returns NotExpiring
  <-> exists rc out err, reply = Communicated rc out err /\ rc <> 1.
Proof.
  split.
  - intros H. destruct reply as [e | rc out err] eqn:Ea.
    + rewrite (x509_checkend_raised _ _ _ _ e Ea) in H. absurd_probe H.
    + destruct (Z.eq_dec rc 1) as [-> | Hrc]; [| now exists rc, out, err].
      destruct (decode_UTF8 err) as [[| c text] | e] eqn:Ed.
      * rewrite (x509_checkend_silent _ _ _ _ out err Ea Ed) in H.
        absurd_probe H.
      * rewrite (x509_checkend_diagnostic _ _ _ _ out err _ Ea Ed) in H
          by discriminate.
        absurd_probe H.
      * rewrite (x509_checkend_undecodable _ _ _ _ out err _ Ea Ed) in H.
        discriminate H.
  - intros (rc & out & err & Ea & Hrc).
    apply (x509_checkend_other_status _ _ _ _ rc out err Ea Hrc).
Qed.

(** The probe is [Indeterminate] in two cases and no other: spawning
    raised, and the reason is the exception; or [openssl] exits with
    status 1 and a standard error that decodes to a non-empty text, and
    the reason is that text. *)
Theorem x509_checkend_Indeterminate_iff (reason : pyval) :
  probe = Returns (Indeterminate reason)
  <-> (exists e, reply = PopenRaises e /\ reason = VExc e)
      \/ (exists out err text,
            reply = Communicated 1 out err
            /\ decode_UTF8 err = Returns text /\ text <> []
            /\ reason = VStr text).
Proof.
  split.
  - intros H. destruct reply as [e | rc out err] eqn:Ea.
    + rewrite (x509_checkend_raised _ _ _ _ e Ea) in H.
      left. exists e. split; [reflexivity |].
      symmetry. now apply Indeterminate_inj.
    + right. destruct (Z.eq_dec rc 1) as [-> | Hrc].
      * destruct (decode_UTF8 err) as [[| c text] | e] eqn:Ed.
        -- rewrite (x509_checkend_silent _ _ _ _ out err Ea Ed) in H.
           absurd_probe H.
        -- rewrite (x509_checkend_diagnostic _ _ _ _ out err _ Ea Ed) in H
             by discriminate.
           exists out, err, (c :: text).
           split; [reflexivity |]. split; [exact Ed |].
           split; [discriminate |].
           symmetry. now apply Indeterminate_inj.
        -- rewrite (x509_checkend_undecodable _ _ _ _ out err _ Ea Ed) in H.
           discriminate H.
      * rewrite (x509_checkend_other_status _ _ _ _ rc out err Ea Hrc) in H.
        absurd_probe H.
  - intros [(e & Ea & ->) | (out & err & text & Ea & Ed & Hne & ->)].
    + apply (x509_checkend_raised _ _ _ _ e Ea).
    + apply (x509_checkend_diagnostic _ _ _ _ out err text Ea Ed Hne).
Qed.


(** A diagnostic in ASCII is the reason byte for byte. *)
Theorem x509_checkend_ascii_diagnostic (out err : list Byte.byte) :
  reply = Communicated 1 out err ->
  err <> [] ->
  forallb (fun b => Byte.to_N b <? 0x80)%N err = true ->
  probe = Returns (Indeterminate (VStr (map Byte.to_N err))).
Proof.
  intros Ea Hne Hascii.
  apply (x509_checkend_diagnostic _ _ _ _ out err _ Ea).
  - unfold decode_UTF8. now rewrite utf8_ascii by now apply forallb_to_N.
  - now destruct err.
Qed.
End ProberVerdicts.

(** The prober never reads what [openssl] writes to its standard output:
    two replies with the same exit status and the same standard error
    give the same result. *)
Theorem x509_checkend_ignores_stdout
    (cert : str) (time : Z) (w1 w2 : world) (calls1 calls2 : list cmdline)
    (rc : Z) (out1 out2 err : list Byte.byte) :
  answer cert time w1 calls1 = Communicated rc out1 err ->
  answer cert time w2 calls2 = Communicated rc out2 err ->
  fst (x509_checkend cert time w1 calls1)
  = fst (x509_checkend cert time w2 calls2).
Proof.
  unfold answer, x509_checkend, bind, Popen_communicate, lift, ret.
  intros -> ->. destruct (rc =? 1); [| reflexivity].
  destruct (decode_UTF8 err) as [text | e]; [| reflexivity]. simpl.
  destruct (negb _); reflexivity.
Qed.

(** ** More about the classifier *)

(** Two hypotheses that give one probe two different results. *)
Ltac clash :=
  match goal with
  | H1 : ?p = Returns _, H : ?p = Returns _ |- _ =>
      rewrite H1 in H; absurd_probe H
  | H1 : ?p = Raises _, H : ?p = Returns _ |- _ =>
      rewrite H1 in H; discriminate H
  end.

(** Case analysis on the probes of a call, with the classifier rewritten
    in each case. *)
Ltac by_probes cert warn crit w calls :=
  destruct (x509_checkend_cases cert (crit * 86400) w calls)
    as [?H1 | [?H1 | [[?r1 ?H1] | [?b1 ?H1]]]];
  [ destruct (x509_checkend_cases cert (warn * 86400) w
                (calls ++ [checkend_cmd cert (crit * 86400)]))
      as [?H2 | [?H2 | [[?r2 ?H2] | [?b2 ?H2]]]]
  | | | ];
  classify; cbn [fst snd];
  unfold STATUS_OK, STATUS_WARN, STATUS_CRIT, STATUS_UNKNOWN, global_args.

Section Verdicts.
Variables (g : globals) (cert : str) (warn crit : Z).
Variables (w : world) (calls : list cmdline).

Local Abbreviation crit_cmd := (checkend_cmd cert (crit * 86400)).
Local Abbreviation warn_cmd := (checkend_cmd cert (warn * 86400)).
Local Abbreviation crit_probe :=
  (fst (x509_checkend cert (crit * 86400) w calls)).
Local Abbreviation warn_probe :=
  (fst (x509_checkend cert (warn * 86400) w (calls ++ [crit_cmd]))).
Local Abbreviation verdict :=
  (fst (check_cert_expiry g cert warn crit w calls)).


(** The classifier returns [STATUS_CRIT] exactly when the
    critical-horizon probe reports [Expiring]. *)
Theorem STATUS_CRIT_iff :
  (exists msg, verdict = Returns (STATUS_CRIT, msg))
  <-> crit_probe = Returns Expiring.
Proof.
  by_probes cert warn crit w calls; try destruct (args g);
    (split; [intros [msg H] | intros H]);
    solve [discriminate H | assumption | clash | eexists; reflexivity].
Qed.

(** The classifier returns [STATUS_UNKNOWN] exactly when the
    critical-horizon probe is [Indeterminate]; a warning-horizon probe
    that fails is never reported as UNKNOWN. *)
Theorem STATUS_UNKNOWN_iff :
  (exists msg, verdict = Returns (STATUS_UNKNOWN, msg))
  <-> exists reason, crit_probe = Returns (Indeterminate reason).
Proof.
  by_probes cert warn crit w calls; try destruct (args g);
    (split; [intros [msg H] | intros [reason H]]);
    solve [discriminate H | eexists; eassumption | clash
          | eexists; reflexivity].
Qed.

(** The classifier returns [STATUS_OK] exactly when the critical-horizon
    probe returns [NotExpiring] and the warning-horizon probe returns
    [NotExpiring] or [Indeterminate]. *)
Theorem STATUS_OK_iff :
  (exists msg, verdict = Returns (STATUS_OK, msg))
  <-> crit_probe = Returns NotExpiring
      /\ (warn_probe = Returns NotExpiring
          \/ exists reason, warn_probe = Returns (Indeterminate reason)).
Proof.
  by_probes cert warn crit w calls; try destruct (args g);
    (split; [intros [msg H] | intros [H [H' | [reason H']]]]);
    solve [discriminate H | clash | eexists; reflexivity
          | split; [assumption | left; assumption]
          | split; [assumption | right; eexists; eassumption]].
Qed.

(** The classifier returns [STATUS_WARN] exactly when the
    critical-horizon probe returns [NotExpiring], the warning-horizon
    probe reports [Expiring], and the global [args] is bound. *)
Theorem STATUS_WARN_iff :
  (exists msg, verdict = Returns (STATUS_WARN, msg))
  <-> crit_probe = Returns NotExpiring
      /\ warn_probe = Returns Expiring
      /\ args g <> None.
Proof.
  by_probes cert warn crit w calls; try destruct (args g);
    (split; [intros [msg H] | intros (H & H' & Hg)]);
    solve [discriminate H | clash | eexists; reflexivity | contradiction
          | repeat split; (assumption || discriminate)].
Qed.

End Verdicts.

(** The module globals matter on the warning path only. *)
Theorem globals_matter_on_the_warning_path_only
    (g1 g2 : globals) (cert : str) (warn crit : Z)
    (w : world) (calls : list cmdline) :
  ~ (fst (x509_checkend cert (crit * 86400) w calls) = Returns NotExpiring
     /\ fst (x509_checkend cert (warn * 86400) w
               (calls ++ [checkend_cmd cert (crit * 86400)]))
        = Returns Expiring) ->
  check_cert_expiry g1 cert warn crit w calls
  = check_cert_expiry g2 cert warn crit w calls.
Proof.
  intros H.
  destruct (x509_checkend_cases cert (crit * 86400) w calls)
    as [H1 | [H1 | [[r1 H1] | [b1 H1]]]];
    [ destruct (x509_checkend_cases cert (warn * 86400) w
                  (calls ++ [checkend_cmd cert (crit * 86400)]))
        as [H2 | [H2 | [[r2 H2] | [b2 H2]]]] | | | ].
  - now rewrite !(check_warn_not_expiring _ _ _ _ _ _ H1 H2).
  - exfalso. apply H. now split.
  - now rewrite !(check_warn_indeterminate _ _ _ _ _ _ _ H1 H2).
  - now rewrite !(check_warn_raises _ _ _ _ _ _ _ H1 H2).
  - now rewrite !(check_crit_expiring _ _ _ _ _ _ H1).
  - now rewrite !(check_crit_indeterminate _ _ _ _ _ _ _ H1).
  - now rewrite !(check_crit_raises _ _ _ _ _ _ _ H1).
Qed.

(** ** More about [str(int)] and the command line *)

Lemma lit_String (c : ascii) (s : string) :
  lit (String c s) = N_of_ascii c :: lit s.
Proof. reflexivity. Qed.

Lemma N_of_ascii_inj (a b : ascii) : N_of_ascii a = N_of_ascii b -> a = b.
Proof.
  intros H. rewrite <- (ascii_N_embedding a), <- (ascii_N_embedding b).
  now rewrite H.
Qed.

Lemma lit_inj (s t : string) : lit s = lit t -> s = t.
Proof.
  revert t. induction s as [| a s IH]; intros [| b t]; try discriminate.
  - reflexivity.
  - rewrite !lit_String. intros [= Hab Hst].
    now rewrite (N_of_ascii_inj a b Hab), (IH t Hst).
Qed.

Lemma to_int_proper (n : Z) :
  Z.to_int n <> Decimal.Pos Decimal.Nil
  /\ Z.to_int n <> Decimal.Neg Decimal.Nil.
Proof.
  destruct n as [| p | p]; simpl; split; try discriminate;
    intros [= H]; now apply DecimalPos.Unsigned.to_uint_nonnil in H.
Qed.



(** [str] of an [int] can be read back: different integers print
    differently. *)
Lemma str_of_int_inj (n m : Z) : str_of_int n = str_of_int m -> n = m.
Proof.
  unfold str_of_int. intros H%lit_inj.
  apply DecimalZ.to_int_inj.
  destruct (to_int_proper n) as [Hn Hn'], (to_int_proper m) as [Hm Hm'].
  pose proof (NilZero.isi _ Hn Hn') as En.
  pose proof (NilZero.isi _ Hm Hm') as Em.
  rewrite H in En. rewrite En in Em. now injection Em.
Qed.

(** The command line determines the file and the horizon: two probes
    spawn the same command only if they are the same probe. *)
Theorem checkend_cmd_inj (cert cert' : str) (time time' : Z) :
  checkend_cmd cert time = checkend_cmd cert' time' ->
  cert = cert' /\ time = time'.
Proof.
  unfold checkend_cmd. intros H.
  assert (Ht : str_of_int time = str_of_int time') by congruence.
  assert (Hc : cert = cert') by congruence.
  split; [exact Hc | now apply str_of_int_inj].
Qed.

(** ** More about a run *)





Section Lines.
Variables (path : str) (days : Z) (reason : pyval).




End Lines.


(** ** The theorems above, at concrete runs *)

Lemma x509_checkend_Expiring_iff_witness :
  (exists out,
     answer Scenario.pem 604800 Scenario.expires_in_3_days []
     = Communicated 1 out [])
  /\ fst (x509_checkend Scenario.pem 604800 Scenario.expires_in_3_days [])
     = Returns Expiring.
Proof.
  assert (H : exists out,
                answer Scenario.pem 604800 Scenario.expires_in_3_days []
                = Communicated 1 out [])
    by (exists []; reflexivity).
  split; [exact H |].
  exact (proj2 (x509_checkend_Expiring_iff Scenario.pem 604800
                  Scenario.expires_in_3_days []) H).
Defined.

Lemma x509_checkend_NotExpiring_iff_witness :
  fst (x509_checkend Scenario.pem 604800 Scenario.fails_with_status_2 [])
  = Returns NotExpiring
  /\ exists rc out err,
       answer Scenario.pem 604800 Scenario.fails_with_status_2 []
       = Communicated rc out err /\ rc <> 1.
Proof.
  assert (H : fst (x509_checkend Scenario.pem 604800
                     Scenario.fails_with_status_2 [])
              = Returns NotExpiring) by (vm_compute; reflexivity).
  split; [exact H |].
  exact (proj1 (x509_checkend_NotExpiring_iff Scenario.pem 604800
                  Scenario.fails_with_status_2 []) H).
Defined.

Lemma x509_checkend_Indeterminate_iff_witness :
  fst (x509_checkend Scenario.pem 604800 Scenario.openssl_missing [])
  = Returns (Indeterminate (VExc Scenario.no_openssl)).
Proof.
  apply (proj2 (x509_checkend_Indeterminate_iff Scenario.pem 604800
                  Scenario.openssl_missing [] (VExc Scenario.no_openssl))).
  left. exists Scenario.no_openssl. split; reflexivity.
Defined.


Lemma x509_checkend_ascii_diagnostic_witness :
  fst (x509_checkend Scenario.pem 604800 Scenario.unreadable_certificate [])
  = Returns (Indeterminate
               (VStr (lit "unable to load certificate" ++ newline))).
Proof.
  apply (x509_checkend_ascii_diagnostic Scenario.pem 604800
           Scenario.unreadable_certificate [] []
           (list_byte_of_string "unable to load certificate" ++ [Byte.x0a])).
  - reflexivity.
  - vm_compute. discriminate.
  - vm_compute. reflexivity.
Defined.

Lemma x509_checkend_ignores_stdout_witness :
  fst (x509_checkend Scenario.pem 604800 Scenario.expires_in_10_days [])
  = fst (x509_checkend Scenario.pem 604800
           Scenario.expires_in_10_days_verbose []).
Proof.
  apply (x509_checkend_ignores_stdout Scenario.pem 604800
           Scenario.expires_in_10_days Scenario.expires_in_10_days_verbose
           [] [] 0 []
           (list_byte_of_string "Certificate will not expire") []).
  - reflexivity.
  - reflexivity.
Defined.

Lemma x509_checkend_dict_shape_witness :
  exists n,
    Indeterminate (VExc Scenario.no_openssl) !! "result" = Some (VInt n)
    /\ (n = 0 \/ n = 1 \/ n = 2)
    /\ (n = 2 ->
        is_Some (Indeterminate (VExc Scenario.no_openssl) !! "message")).
Proof.
  apply (x509_checkend_dict_shape Scenario.pem 604800
           Scenario.openssl_missing []).
  vm_compute. reflexivity.
Defined.


Lemma STATUS_CRIT_iff_witness :
  fst (x509_checkend Scenario.pem (7 * 86400) Scenario.expires_in_3_days [])
  = Returns Expiring
  /\ exists msg,
       fst (check_cert_expiry (Globals None) Scenario.pem 14 7
              Scenario.expires_in_3_days [])
       = Returns (STATUS_CRIT, msg).
Proof.
  assert (H : fst (x509_checkend Scenario.pem (7 * 86400)
                     Scenario.expires_in_3_days []) = Returns Expiring)
    by (vm_compute; reflexivity).
  split; [exact H |].
  exact (proj2 (STATUS_CRIT_iff (Globals None) Scenario.pem 14 7
                  Scenario.expires_in_3_days []) H).
Defined.

Lemma STATUS_UNKNOWN_iff_witness :
  (exists msg,
     fst (check_cert_expiry (Globals None) Scenario.pem 14 7
            Scenario.unreadable_certificate [])
     = Returns (STATUS_UNKNOWN, msg))
  /\ exists reason,
       fst (x509_checkend Scenario.pem (7 * 86400)
              Scenario.unreadable_certificate [])
       = Returns (Indeterminate reason).
Proof.
  assert (H : exists msg,
                fst (check_cert_expiry (Globals None) Scenario.pem 14 7
                       Scenario.unreadable_certificate [])
                = Returns (STATUS_UNKNOWN, msg))
    by (eexists; vm_compute; reflexivity).
  split; [exact H |].
  exact (proj1 (STATUS_UNKNOWN_iff (Globals None) Scenario.pem 14 7
                  Scenario.unreadable_certificate []) H).
Defined.

Lemma STATUS_OK_iff_witness :
  (exists msg,
     fst (check_cert_expiry (Globals None) Scenario.pem 14 7
            Scenario.warning_probe_fails [])
     = Returns (STATUS_OK, msg))
  /\ fst (x509_checkend Scenario.pem (7 * 86400)
            Scenario.warning_probe_fails [])
     = Returns NotExpiring.
Proof.
  assert (H : exists msg,
                fst (check_cert_expiry (Globals None) Scenario.pem 14 7
                       Scenario.warning_probe_fails [])
                = Returns (STATUS_OK, msg))
    by (eexists; vm_compute; reflexivity).
  split; [exact H |].
  exact (proj1 (proj1 (STATUS_OK_iff (Globals None) Scenario.pem 14 7
                         Scenario.warning_probe_fails []) H)).
Defined.

Lemma STATUS_WARN_iff_witness :
  (exists msg,
     fst (check_cert_expiry (Globals (Some (Scenario.defaults Scenario.pem)))
            Scenario.pem 14 7 Scenario.expires_in_10_days [])
     = Returns (STATUS_WARN, msg))
  /\ args (Globals (Some (Scenario.defaults Scenario.pem))) <> None.
Proof.
  assert (H : exists msg,
                fst (check_cert_expiry
                       (Globals (Some (Scenario.defaults Scenario.pem)))
                       Scenario.pem 14 7 Scenario.expires_in_10_days [])
                = Returns (STATUS_WARN, msg))
    by (eexists; vm_compute; reflexivity).
  split; [exact H |].
  exact (proj2 (proj2 (proj1 (STATUS_WARN_iff _ Scenario.pem 14 7
                                Scenario.expires_in_10_days []) H))).
Defined.


Lemma globals_matter_on_the_warning_path_only_witness :
  check_cert_expiry (Globals None) Scenario.pem 14 7
    Scenario.expires_in_3_days []
  = check_cert_expiry (Globals (Some (Scenario.defaults Scenario.pem)))
      Scenario.pem 14 7 Scenario.expires_in_3_days [].
Proof.
  apply (globals_matter_on_the_warning_path_only (Globals None)
           (Globals (Some (Scenario.defaults Scenario.pem)))
           Scenario.pem 14 7 Scenario.expires_in_3_days []).
  intros [H _]. absurd_probe H.
Defined.




Lemma checkend_cmd_inj_witness :
  Scenario.pem = Scenario.pem /\ 7 * 86400 = 604800.
Proof.
  apply (checkend_cmd_inj Scenario.pem Scenario.pem (7 * 86400) 604800).
  reflexivity.
Defined.

(** ** From the replies of [openssl] to the behaviour of a run *)

(** The result of a probe depends on the world through the reply to its
    one spawn only. *)
Lemma x509_checkend_by_answer
    (cert : str) (time : Z) (w1 w2 : world) (calls1 calls2 : list cmdline) :
  answer cert time w1 calls1 = answer cert time w2 calls2 ->
  fst (x509_checkend cert time w1 calls1)
  = fst (x509_checkend cert time w2 calls2).
Proof.
  unfold answer, x509_checkend, bind, Popen_communicate, lift, ret.
  intros ->. destruct (spawn w2 _ _) as [e | rc out err]; [reflexivity |].
  destruct (rc =? 1); [| reflexivity].
  destruct (decode_UTF8 err) as [text | e]; [| reflexivity]. simpl.
  destruct (negb _); reflexivity.
Qed.


(** With equal thresholds, and a world that answers a command the same
    way whenever it is spawned, the classifier never returns
    [STATUS_WARN]. *)
Theorem equal_thresholds_never_warn
    (g : globals) (cert : str) (days : Z)
    (w : world) (calls : list cmdline) (msg : str) :
  (forall n m cmd, spawn w n cmd = spawn w m cmd) ->
  fst (check_cert_expiry g cert days days w calls)
  <> Returns (STATUS_WARN, msg).
Proof.
  intros Hstable.
  assert (Hsame : fst (x509_checkend cert (days * 86400) w calls)
                  = fst (x509_checkend cert (days * 86400) w
                           (calls ++ [checkend_cmd cert (days * 86400)])))
    by (apply x509_checkend_by_answer, Hstable).
  by_probes cert days days w calls; try destruct (args g); intros H;
    try discriminate H;
    rewrite H1, H2 in Hsame; absurd_probe Hsame.
Qed.

Lemma equal_thresholds_never_warn_witness :
  fst (check_cert_expiry (Globals (Some (Scenario.defaults Scenario.pem)))
         Scenario.pem 7 7 Scenario.expires_in_a_year [])
  <> Returns (STATUS_WARN, WARNING_msg Scenario.pem 7).
Proof.
  apply (equal_thresholds_never_warn
           (Globals (Some (Scenario.defaults Scenario.pem)))
           Scenario.pem 7 Scenario.expires_in_a_year []).
  intros [| n] [| m] cmd; reflexivity.
Defined.




